(** * txx: SQL transactions carried in a Go context

    A shallow embedding of [txx.go]: the carrier [Current], the reuse
    decision [NewTransactionRequired], the context plumbing [Get]/[Set_],
    and the orchestrators [Ensure] and [Wrap] with their
    begin / run / commit-or-rollback lifecycle.

    Conventions of the embedding.
    - A Go pointer that the package only tests against [nil] and reads
      through is an [option]: [*sql.Tx] is an optional session handle,
      [*sql.TxOptions] an optional record of the two fields.
    - An [error] is an optional error value, [None] being [nil].
    - A Go function that talks to the database runs in the monad [M]: it
      threads the machine state and ends either by returning or by a
      propagating panic.  Following the language since Go 1.21, a
      propagating panic always carries a non-nil value, so [recover()]
      is [nil] exactly when the function is not panicking. *)

From Stdlib Require Import ZArith List String Bool Lia.
Import ListNotations.
Local Open Scope Z_scope.

(** ** The part of [database/sql] the package relies on *)

Module sql.

(** [type IsolationLevel int]: only compared, never computed with. *)
Definition IsolationLevel := Z.

Definition LevelDefault : IsolationLevel := 0.
Definition LevelReadUncommitted : IsolationLevel := 1.
Definition LevelReadCommitted : IsolationLevel := 2.
Definition LevelWriteCommitted : IsolationLevel := 3.
Definition LevelRepeatableRead : IsolationLevel := 4.
Definition LevelSnapshot : IsolationLevel := 5.
Definition LevelSerializable : IsolationLevel := 6.
Definition LevelLinearizable : IsolationLevel := 7.

(** [type TxOptions struct { Isolation IsolationLevel; ReadOnly bool }] *)
Record TxOptions := mkTxOptions {
  Isolation : IsolationLevel;
  ReadOnly : bool
}.

(** The zero value [sql.TxOptions{}]. *)
Definition zeroTxOptions : TxOptions :=
  {| Isolation := LevelDefault; ReadOnly := false |}.

(** The address of an open [sql.Tx]; a [*sql.Tx] is [option Tx]. *)
Definition Tx := nat.

(** The address of a [sql.DB]. *)
Definition DB := nat.

End sql.

(** A non-nil [error] value, and the values a panic can carry. *)
Definition Err := string.
Definition error := option Err.
Definition PanicVal := string.

(** ** The carrier *)

(** [type Current struct { Tx *sql.Tx; Opts *sql.TxOptions }] *)
Record Current := mkCurrent {
  Tx : option sql.Tx;
  Opts : option sql.TxOptions
}.

(** The zero value [Current{}]. *)
Definition zeroCurrent : Current := {| Tx := None; Opts := None |}.

(** [func (c Current) IsValid() bool { return c.Tx != nil }] *)
Definition IsValid (c : Current) : bool :=
  match Tx c with
  | Some _ => true
  | None => false
  end.

(** [func (c Current) NewTransactionRequired(opts *sql.TxOptions) bool] *)
Definition NewTransactionRequired (c : Current) (opts : option sql.TxOptions) : bool :=
  if negb (IsValid c) then true
  else
    match Opts c with
    | None =>
        (* return opts != nil *)
        match opts with
        | Some _ => true
        | None => false
        end
    | Some held =>
        match opts with
        | None => true
        | Some req =>
            if negb (Bool.eqb (sql.ReadOnly held) (sql.ReadOnly req)) then true
            else sql.Isolation req >? sql.Isolation held
        end
    end.

(** [func ReadOnly() *sql.TxOptions { return &sql.TxOptions{ReadOnly: true} }] *)
Definition ReadOnly : option sql.TxOptions :=
  Some {| sql.Isolation := sql.LevelDefault; sql.ReadOnly := true |}.

(** ** The part of [context] the package relies on *)

(** [type key int]: the unexported key type of the package. *)
Definition key := Z.

(** [var ctxKey key]: the zero value. *)
Definition ctxKey : key := 0.

Module context.

(** A context key is an interface value: it is equal to [ctxKey] only
    when its dynamic type is [txx.key]. *)
Inductive Key :=
| KeyTxx (k : key)
| KeyForeign (id : nat).

(** What [ctx.Value] can give back: nothing, a [Current], or a value
    of some other dynamic type. *)
Inductive Any :=
| AnyNil
| AnyCurrent (c : Current)
| AnyForeign (id : nat).

Definition Key_eqb (a b : Key) : bool :=
  match a, b with
  | KeyTxx x, KeyTxx y => x =? y
  | KeyForeign x, KeyForeign y => Nat.eqb x y
  | _, _ => false
  end.

(** Contexts are immutable chains: [context.Background()] at the root,
    one [valueCtx] node per [context.WithValue]. *)
Inductive Context :=
| Background
| WithValue (parent : Context) (k : Key) (v : Any).

(** [ctx.Value(key)]: the nearest binding of [key], [nil] when none. *)
Fixpoint Value (ctx : Context) (k : Key) : Any :=
  match ctx with
  | Background => AnyNil
  | WithValue parent k' v => if Key_eqb k' k then v else Value parent k
  end.

End context.

(** [func Get(ctx context.Context) Current]: the type assertion
    [.(Current)] succeeds only on a [Current]. *)
Definition Get (ctx : context.Context) : Current :=
  match context.Value ctx (context.KeyTxx ctxKey) with
  | context.AnyCurrent result => result
  | _ => zeroCurrent
  end.

(** [func Set(ctx context.Context, tx *sql.Tx, opts *sql.TxOptions) context.Context]
    ([Set] is a reserved word here, hence the underscore.) *)
Definition Set_ (ctx : context.Context) (tx : option sql.Tx) (opts : option sql.TxOptions)
  : context.Context :=
  context.WithValue ctx (context.KeyTxx ctxKey) (context.AnyCurrent {| Tx := tx; Opts := opts |}).

(** ** Effects: machine state, outcomes and the monad *)

(** A call the package issues on the database. *)
Inductive Call :=
| CallBeginTx (db : sql.DB) (ctx : context.Context) (opts : option sql.TxOptions)
| CallCommit (tx : sql.Tx)
| CallRollback (tx : sql.Tx).

(** The database collaborator: [db.BeginTx], [tx.Commit] and
    [tx.Rollback] over a driver state [D] of its own.  [BeginTx] gives
    either an open session or an error, as [database/sql] promises. *)
Class Driver (D : Type) := {
  begin_tx : sql.DB -> context.Context -> option sql.TxOptions -> D -> (sql.Tx + Err) * D;
  commit : sql.Tx -> D -> error * D;
  rollback : sql.Tx -> D -> error * D
}.

(** The machine: the driver's state and the calls issued so far, oldest
    first. *)
Record Machine (D : Type) := mkMachine {
  driver : D;
  calls : list Call
}.
Arguments mkMachine {D} _ _.
Arguments driver {D} _.
Arguments calls {D} _.

(** How a Go function call ends. *)
Inductive Outcome (A : Type) :=
| Returned (a : A)
| Panicked (p : PanicVal).
Arguments Returned {A} _.
Arguments Panicked {A} _.

Definition M (D A : Type) : Type := Machine D -> Outcome A * Machine D.

Definition ret {D A : Type} (a : A) : M D A := fun s => (Returned a, s).

Definition panic {D A : Type} (p : PanicVal) : M D A := fun s => (Panicked p, s).

Definition bind {D A B : Type} (m : M D A) (k : A -> M D B) : M D B :=
  fun s =>
    match m s with
    | (Returned a, s') => k a s'
    | (Panicked p, s') => (Panicked p, s')
    end.

Notation "x <- c ;; k" := (bind c (fun x => k))
  (at level 61, c at next level, right associativity).

(** The unit of work: [func(ctx context.Context) error]. *)
Definition Work (D : Type) : Type := context.Context -> M D error.

Section Lifecycle.

Context {D : Type} `{Driver D}.

(** [db.BeginTx(ctx, opts)] *)
Definition BeginTx (db : sql.DB) (ctx : context.Context) (opts : option sql.TxOptions)
  : M D (sql.Tx + Err) :=
  fun s =>
    let (r, d) := begin_tx db ctx opts (driver s) in
    (Returned r, mkMachine d (calls s ++ [CallBeginTx db ctx opts])).

(** The machine once [BeginTx] has been issued from [s] and has left the
    driver in state [d]. *)
Definition begun (db : sql.DB) (ctx : context.Context) (opts : option sql.TxOptions)
  (s : Machine D) (d : D) : Machine D :=
  mkMachine d (calls s ++ [CallBeginTx db ctx opts]).

(** [tx.Commit()] *)
Definition Commit (tx : sql.Tx) : M D error :=
  fun s =>
    let (e, d) := commit tx (driver s) in
    (Returned e, mkMachine d (calls s ++ [CallCommit tx])).

(** [tx.Rollback()] *)
Definition Rollback (tx : sql.Tx) : M D error :=
  fun s =>
    let (e, d) := rollback tx (driver s) in
    (Returned e, mkMachine d (calls s ++ [CallRollback tx])).

(** The closure deferred by [Wrap].  [p] is what [recover()] gives and
    [err] the local variable of [Wrap] when the closure starts; the
    value returned is that local variable when the closure ends. *)
Definition Wrap_deferred (tx : sql.Tx) (p : option PanicVal) (err : error) : M D error :=
  match p with
  | Some p =>
      _ <- Rollback tx ;;
      panic p
  | None =>
      match err with
      | Some _ =>
          _ <- Rollback tx ;;
          ret err
      | None =>
          e <- Commit tx ;;
          ret e
      end
  end.

(** [func Wrap(ctx, db, opts, f) error].  The result of [Wrap] is
    unnamed: [return err] copies the local [err] into the result before
    the deferred closure runs, and the closure can then only change the
    local.  When [f] panics, [err] still holds the [nil] of [BeginTx]. *)
Definition Wrap (ctx : context.Context) (db : sql.DB) (opts : option sql.TxOptions)
  (f : Work D) : M D error :=
  r <- BeginTx db ctx opts ;;
  match r with
  | inr err => ret (Some err)
  | inl tx =>
      fun s =>
        match f (Set_ ctx (Some tx) opts) s with
        | (Returned err, s') =>
            let result := err in
            match Wrap_deferred tx None err s' with
            | (Returned _, s'') => (Returned result, s'')
            | (Panicked p, s'') => (Panicked p, s'')
            end
        | (Panicked p, s') =>
            match Wrap_deferred tx (Some p) None s' with
            | (Returned _, s'') => (Returned None, s'')
            | (Panicked p', s'') => (Panicked p', s'')
            end
        end
  end.

(** [func Ensure(ctx, db, opts, f) error] *)
Definition Ensure (ctx : context.Context) (db : sql.DB) (opts : option sql.TxOptions)
  (f : Work D) : M D error :=
  let current := Get ctx in
  if NewTransactionRequired current opts then Wrap ctx db opts f
  else f ctx.

End Lifecycle.

(** ** Units of work used by the package's tests *)

(** [checkTxExists]: fails unless the context carries a valid carrier. *)
Definition checkTxExists {D : Type} : Work D :=
  fun ctx =>
    if negb (IsValid (Get ctx)) then ret (Some "a transaction should exist"%string)
    else ret None.

(** [fail]: always returns the error "test". *)
Definition fail {D : Type} : Work D :=
  fun _ => ret (Some "test"%string).

(** A unit of work that ends in a panic instead of returning. *)
Definition blowUp {D : Type} : Work D :=
  fun _ => panic "boom"%string.

(** ** A scripted driver, to run the package on concrete inputs *)

(** The handle the next session gets, and what the three database calls
    answer. *)
Record Script := mkScript {
  next_tx : sql.Tx;
  begin_err : error;
  commit_err : error;
  rollback_err : error
}.

#[export] Instance ScriptDriver : Driver Script := {
  begin_tx _ _ _ d :=
    match begin_err d with
    | Some e => (inr e, d)
    | None =>
        (inl (next_tx d),
         mkScript (S (next_tx d)) (begin_err d) (commit_err d) (rollback_err d))
    end;
  commit _ d := (commit_err d, d);
  rollback _ d := (rollback_err d, d)
}.

(** A machine on which nothing has been issued yet. *)
Definition fresh (d : Script) : Machine Script := mkMachine d [].

(** Every call succeeds. *)
Definition healthy : Script := mkScript 1%nat None None None.

(** Sessions open, but [Commit] answers an error. *)
Definition commitFails : Script :=
  mkScript 1%nat None (Some "commit failed"%string) None.

(** Sessions open, but [Rollback] answers an error. *)
Definition rollbackFails : Script :=
  mkScript 1%nat None None (Some "rollback failed"%string).

(** [BeginTx] answers an error. *)
Definition beginFails : Script :=
  mkScript 1%nat (Some "begin failed"%string) None None.

(** A unit of work is quiet when it leaves the record of issued calls
    as it found it: it runs statements inside the transaction but does
    not begin, commit or roll back one itself. *)
Definition quiet {D : Type} (f : Work D) : Prop :=
  forall ctx s, calls (snd (f ctx s)) = calls s.

(** * Properties *)

(** ** The reuse decision *)

(** With a valid carrier and both options present, the decision is the
    last two tests of the function. *)
Lemma NewTransactionRequired_present (c : Current) (held req : sql.TxOptions) :
  IsValid c = true ->
  Opts c = Some held ->
  NewTransactionRequired c (Some req) =
    negb (Bool.eqb (sql.ReadOnly held) (sql.ReadOnly req))
    || (sql.Isolation req >? sql.Isolation held).
Proof.
  intros Hv Ho. unfold NewTransactionRequired. rewrite Hv, Ho. cbn.
  destruct (Bool.eqb (sql.ReadOnly held) (sql.ReadOnly req)); reflexivity.
Qed.

(** C5: for a valid carrier and non-nil held and requested options, a new
    transaction is required exactly when the read-only flags differ or
    the requested isolation level is strictly greater than the held one;
    so equal flags with requested <= held give reuse, and differing flags
    force a new transaction whatever the levels. *)
Theorem NewTransactionRequired_both_options (c : Current) (held req : sql.TxOptions) :
  IsValid c = true ->
  Opts c = Some held ->
  (NewTransactionRequired c (Some req) = true <->
     sql.ReadOnly held <> sql.ReadOnly req \/ sql.Isolation req > sql.Isolation held)
  /\ (sql.ReadOnly held = sql.ReadOnly req ->
      sql.Isolation req <= sql.Isolation held ->
      NewTransactionRequired c (Some req) = false)
  /\ (sql.ReadOnly held <> sql.ReadOnly req ->
      NewTransactionRequired c (Some req) = true).
Proof.
  intros Hv Ho.
  rewrite (NewTransactionRequired_present c held req Hv Ho).
  destruct (Bool.eqb_spec (sql.ReadOnly held) (sql.ReadOnly req)) as [E|N]; cbn.
  - repeat split.
    + intros Hgt. right. apply Z.gtb_lt in Hgt. lia.
    + intros [Hne | Hgt]; [contradiction | apply Z.gtb_lt; lia].
    + intros _ Hle. destruct (Z.gtb_spec (sql.Isolation req) (sql.Isolation held)); [lia | reflexivity].
    + intros Hne. contradiction.
  - repeat split.
    + intros _. left. exact N.
    + intros E. contradiction.
Qed.

Lemma NewTransactionRequired_both_options_witness :
  let c := {| Tx := Some 1%nat;
              Opts := Some (sql.mkTxOptions sql.LevelWriteCommitted false) |} in
  let req := sql.mkTxOptions sql.LevelReadCommitted false in
  IsValid c = true /\ NewTransactionRequired c (Some req) = false.
Proof.
  split; [reflexivity|].
  apply (NewTransactionRequired_both_options
           {| Tx := Some 1%nat;
              Opts := Some (sql.mkTxOptions sql.LevelWriteCommitted false) |}
           (sql.mkTxOptions sql.LevelWriteCommitted false)
           (sql.mkTxOptions sql.LevelReadCommitted false)
           eq_refl eq_refl).
  - reflexivity.
  - cbn. unfold sql.LevelReadCommitted, sql.LevelWriteCommitted. lia.
Defined.

(** C6: a carrier without a transaction handle is invalid whatever its
    options field holds, and requires a new transaction for every
    requested options value, nil included. *)
Theorem NewTransactionRequired_invalid_carrier
  (held opts : option sql.TxOptions) :
  IsValid {| Tx := None; Opts := held |} = false
  /\ NewTransactionRequired {| Tx := None; Opts := held |} opts = true.
Proof. split; reflexivity. Qed.

(** C7: for a valid carrier, nil held options against non-nil requested
    options require a new transaction, non-nil held against nil
    requested require one too, and nil against nil does not. *)
Theorem NewTransactionRequired_nil_options
  (tx : sql.Tx) (held req : sql.TxOptions) :
  NewTransactionRequired {| Tx := Some tx; Opts := None |} (Some req) = true
  /\ NewTransactionRequired {| Tx := Some tx; Opts := Some held |} None = true
  /\ NewTransactionRequired {| Tx := Some tx; Opts := None |} None = false.
Proof. repeat split; reflexivity. Qed.

(** ** Context plumbing *)

Lemma Key_eqb_eq (a b : context.Key) : context.Key_eqb a b = true <-> a = b.
Proof.
  destruct a, b; cbn; split; intros E; try discriminate.
  - apply Z.eqb_eq in E. congruence.
  - inversion E. apply Z.eqb_refl.
  - apply Nat.eqb_eq in E. congruence.
  - inversion E. apply Nat.eqb_refl.
Qed.

Lemma Get_Set (ctx : context.Context) (tx : option sql.Tx) (opts : option sql.TxOptions) :
  Get (Set_ ctx tx opts) = {| Tx := tx; Opts := opts |}.
Proof. reflexivity. Qed.

(** A context with nothing under [ctxKey] gives the zero carrier. *)
Lemma Get_absent (ctx : context.Context) :
  context.Value ctx (context.KeyTxx ctxKey) = context.AnyNil ->
  Get ctx = zeroCurrent.
Proof. unfold Get. intros ->. reflexivity. Qed.

(** C8: reading back what [Set_] installed gives a carrier with exactly
    that session and those options; the context [Set_] was given is a
    value that the call leaves as it was, so [Get] on it gives what it
    gave before (the invalid zero carrier when it carried none), and the
    child inherits every binding under another key. *)
Theorem Get_Set_roundtrip
  (ctx : context.Context) (tx : option sql.Tx) (opts : option sql.TxOptions) :
  let before := Get ctx in
  let child := Set_ ctx tx opts in
  Tx (Get child) = tx
  /\ Opts (Get child) = opts
  /\ Get ctx = before
  /\ (context.Value ctx (context.KeyTxx ctxKey) = context.AnyNil ->
      before = zeroCurrent /\ IsValid before = false)
  /\ (forall k, k <> context.KeyTxx ctxKey ->
      context.Value child k = context.Value ctx k).
Proof.
  cbv zeta. rewrite Get_Set. cbn [Tx Opts].
  repeat split.
  - apply Get_absent; assumption.
  - rewrite (Get_absent ctx); [reflexivity | assumption].
  - intros k Hk. cbn [Set_ context.Value].
    destruct (context.Key_eqb (context.KeyTxx ctxKey) k) eqn:E; [|reflexivity].
    apply Key_eqb_eq in E. congruence.
Qed.

Lemma Get_Set_roundtrip_witness :
  let ctx := context.WithValue context.Background (context.KeyForeign 3) (context.AnyForeign 9) in
  let child := Set_ ctx (Some 5%nat) ReadOnly in
  context.Value ctx (context.KeyTxx ctxKey) = context.AnyNil
  /\ Get child = {| Tx := Some 5%nat; Opts := ReadOnly |}
  /\ IsValid (Get ctx) = false
  /\ context.Value child (context.KeyForeign 3) = context.AnyForeign 9.
Proof.
  cbv zeta.
  destruct (Get_Set_roundtrip
              (context.WithValue context.Background (context.KeyForeign 3) (context.AnyForeign 9))
              (Some 5%nat) ReadOnly) as (Ht & Ho & _ & Habs & Hinh).
  split; [reflexivity|].
  split; [reflexivity|].
  split.
  - apply Habs. reflexivity.
  - rewrite Hinh; [reflexivity | discriminate].
Defined.

(** ** The lifecycle *)

Section LifecycleFacts.

Context {D : Type} `{Driver D}.

Lemma BeginTx_run db ctx opts (s : Machine D) r d :
  begin_tx db ctx opts (driver s) = (r, d) ->
  BeginTx db ctx opts s = (Returned r, begun db ctx opts s d).
Proof. unfold BeginTx. intros ->. reflexivity. Qed.

Lemma Commit_run tx (s : Machine D) :
  Commit tx s =
    (Returned (fst (commit tx (driver s))),
     mkMachine (snd (commit tx (driver s))) (calls s ++ [CallCommit tx])).
Proof. unfold Commit. destruct (commit tx (driver s)); reflexivity. Qed.

Lemma Rollback_run tx (s : Machine D) :
  Rollback tx s =
    (Returned (fst (rollback tx (driver s))),
     mkMachine (snd (rollback tx (driver s))) (calls s ++ [CallRollback tx])).
Proof. unfold Rollback. destruct (rollback tx (driver s)); reflexivity. Qed.

(** [Wrap] once the session is open: the work runs on the child context
    and the deferred closure sees how it ended. *)
Lemma Wrap_opened ctx db opts (f : Work D) (s : Machine D) tx d :
  begin_tx db ctx opts (driver s) = (inl tx, d) ->
  Wrap ctx db opts f s =
    match f (Set_ ctx (Some tx) opts) (begun db ctx opts s d) with
    | (Returned err, s') =>
        match Wrap_deferred tx None err s' with
        | (Returned _, s'') => (Returned err, s'')
        | (Panicked p, s'') => (Panicked p, s'')
        end
    | (Panicked p, s') =>
        match Wrap_deferred tx (Some p) None s' with
        | (Returned _, s'') => (Returned None, s'')
        | (Panicked p', s'') => (Panicked p', s'')
        end
    end.
Proof.
  intros Hb. unfold Wrap, bind at 1. rewrite (BeginTx_run _ _ _ _ _ _ Hb). reflexivity.
Qed.

(** When the work returns [nil], [Wrap] issues [Commit] and nothing
    else, and returns [nil] whatever [Commit] answered. *)
Lemma Wrap_work_ok ctx db opts (f : Work D) (s s' : Machine D) tx d :
  begin_tx db ctx opts (driver s) = (inl tx, d) ->
  f (Set_ ctx (Some tx) opts) (begun db ctx opts s d) = (Returned None, s') ->
  Wrap ctx db opts f s =
    (Returned None,
     mkMachine (snd (commit tx (driver s'))) (calls s' ++ [CallCommit tx])).
Proof.
  intros Hb Hf. rewrite (Wrap_opened _ _ _ _ _ _ _ Hb), Hf.
  unfold Wrap_deferred, bind. rewrite Commit_run. reflexivity.
Qed.

(** C2: when the work returns a non-nil error, the only call [Wrap]
    issues after it is [Rollback] (so no [Commit]), and [Wrap] returns
    that very error; what [Rollback] answers is dropped. *)
Theorem Wrap_work_error ctx db opts (f : Work D) (s s' : Machine D) tx d e :
  begin_tx db ctx opts (driver s) = (inl tx, d) ->
  f (Set_ ctx (Some tx) opts) (begun db ctx opts s d) = (Returned (Some e), s') ->
  Wrap ctx db opts f s =
    (Returned (Some e),
     mkMachine (snd (rollback tx (driver s'))) (calls s' ++ [CallRollback tx])).
Proof.
  intros Hb Hf. rewrite (Wrap_opened _ _ _ _ _ _ _ Hb), Hf.
  unfold Wrap_deferred, bind. rewrite Rollback_run. reflexivity.
Qed.

(** C3: when the work ends in a panic, the only call [Wrap] issues after
    it is [Rollback], whose answer is dropped, and [Wrap] itself ends in
    a panic carrying the same value: it does not return. *)
Theorem Wrap_work_panic ctx db opts (f : Work D) (s s' : Machine D) tx d p :
  begin_tx db ctx opts (driver s) = (inl tx, d) ->
  f (Set_ ctx (Some tx) opts) (begun db ctx opts s d) = (Panicked p, s') ->
  Wrap ctx db opts f s =
    (Panicked p,
     mkMachine (snd (rollback tx (driver s'))) (calls s' ++ [CallRollback tx])).
Proof.
  intros Hb Hf. rewrite (Wrap_opened _ _ _ _ _ _ _ Hb), Hf.
  unfold Wrap_deferred, bind. rewrite Rollback_run. reflexivity.
Qed.

(** C4: when [BeginTx] answers an error, [Wrap] returns it at once: the
    outcome does not depend on the work, and the only call issued is
    that [BeginTx]. *)
Theorem Wrap_begin_failure ctx db opts (s : Machine D) e d :
  begin_tx db ctx opts (driver s) = (inr e, d) ->
  forall f : Work D,
    Wrap ctx db opts f s = (Returned (Some e), begun db ctx opts s d).
Proof.
  intros Hb f. unfold Wrap, bind. rewrite (BeginTx_run _ _ _ _ _ _ Hb). reflexivity.
Qed.

(** C9: when the carrier of the context does not require a new
    transaction, [Ensure] is the work applied to that same context:
    same outcome, same machine afterwards, hence no call of its own;
    the carrier the work reads is the caller's, and it is valid. *)
Theorem Ensure_reuse ctx db opts (f : Work D) (s : Machine D) :
  NewTransactionRequired (Get ctx) opts = false ->
  Ensure ctx db opts f s = f ctx s /\ IsValid (Get ctx) = true.
Proof.
  intros Hn. unfold Ensure. rewrite Hn. split; [reflexivity|].
  unfold NewTransactionRequired in Hn.
  destruct (IsValid (Get ctx)); [reflexivity | discriminate].
Qed.

Lemma NewTransactionRequired_same tx (o : option sql.TxOptions) :
  NewTransactionRequired {| Tx := Some tx; Opts := o |} o = false.
Proof.
  destruct o as [o|]; [|reflexivity].
  unfold NewTransactionRequired. cbn.
  rewrite Bool.eqb_reflx. cbn.
  destruct (Z.gtb_spec (sql.Isolation o) (sql.Isolation o)); [lia | reflexivity].
Qed.

Lemma Wrap_failed ctx db opts (f : Work D) (s : Machine D) e d :
  begin_tx db ctx opts (driver s) = (inr e, d) ->
  Wrap ctx db opts f s = (Returned (Some e), begun db ctx opts s d).
Proof.
  intros Hb. unfold Wrap, bind. rewrite (BeginTx_run _ _ _ _ _ _ Hb). reflexivity.
Qed.

(** What [Wrap] does after the work, by the way the work ended. *)
Lemma Wrap_after_work ctx db opts (f : Work D) (s s' : Machine D) tx d o :
  begin_tx db ctx opts (driver s) = (inl tx, d) ->
  f (Set_ ctx (Some tx) opts) (begun db ctx opts s d) = (o, s') ->
  Wrap ctx db opts f s =
    (o,
     match o with
     | Returned None =>
         mkMachine (snd (commit tx (driver s'))) (calls s' ++ [CallCommit tx])
     | _ =>
         mkMachine (snd (rollback tx (driver s'))) (calls s' ++ [CallRollback tx])
     end).
Proof.
  intros Hb Hf. rewrite (Wrap_opened _ _ _ _ _ _ _ Hb), Hf.
  destruct o as [[e|]|p]; unfold Wrap_deferred, bind;
    rewrite ?Commit_run, ?Rollback_run; reflexivity.
Qed.

(** C10: the carrier [Wrap] installs for an open session and options [o]
    does not require a new transaction for [o].  When [BeginTx] opens
    session [tx], [Wrap] runs its work on the child context, whose
    carrier holds [tx] and [o]; an [Ensure] asking for [o] there is the
    work itself on that same context and issues no call; so [Wrap]
    around such an [Ensure] issues the one [BeginTx] and the one closing
    call on [tx], as [Wrap] around the work does.  The same holds for an
    enclosing [Ensure], which either reuses the caller's carrier or
    opens [tx] as [Wrap] does. *)
Theorem Wrap_carrier_reused tx (o : option sql.TxOptions) :
  NewTransactionRequired {| Tx := Some tx; Opts := o |} o = false
  /\ (forall ctx db (s : Machine D) d,
        begin_tx db ctx o (driver s) = (inl tx, d) ->
        forall (g : Work D) out s',
          g (Set_ ctx (Some tx) o) (begun db ctx o s d) = (out, s') ->
          let closed :=
            match out with
            | Returned None =>
                mkMachine (snd (commit tx (driver s'))) (calls s' ++ [CallCommit tx])
            | _ =>
                mkMachine (snd (rollback tx (driver s'))) (calls s' ++ [CallRollback tx])
            end in
          Get (Set_ ctx (Some tx) o) = {| Tx := Some tx; Opts := o |}
          /\ Wrap ctx db o g s = (out, closed)
          /\ Ensure (Set_ ctx (Some tx) o) db o g (begun db ctx o s d) = (out, s')
          /\ Wrap ctx db o (fun c => Ensure c db o g) s = (out, closed)
          /\ (NewTransactionRequired (Get ctx) o = true ->
              Ensure ctx db o (fun c => Ensure c db o g) s = (out, closed)))
  /\ (forall ctx db (g : Work D) (s : Machine D),
        NewTransactionRequired (Get ctx) o = false ->
        Ensure ctx db o (fun c => Ensure c db o g) s = g ctx s)
  /\ forall ctx db (g : Work D) (s : Machine D),
       Ensure (Set_ ctx (Some tx) o) db o g s = g (Set_ ctx (Some tx) o) s
       /\ Wrap ctx db o (fun c => Ensure c db o g) s = Wrap ctx db o g s
       /\ Ensure ctx db o (fun c => Ensure c db o g) s = Ensure ctx db o g s.
Proof.
  assert (Hin : forall db (g : Work D) c t s0,
             Ensure (Set_ c (Some t) o) db o g s0 = g (Set_ c (Some t) o) s0).
  { intros db g c t s0. unfold Ensure.
    rewrite Get_Set, NewTransactionRequired_same. reflexivity. }
  assert (Hw : forall db (g : Work D) c s0,
             Wrap c db o (fun c' => Ensure c' db o g) s0 = Wrap c db o g s0).
  { intros db g c s0. destruct (begin_tx db c o (driver s0)) as [[t|e] d] eqn:Hb.
    - rewrite !(Wrap_opened _ _ _ _ _ _ _ Hb), Hin. reflexivity.
    - rewrite !(Wrap_failed _ _ _ _ _ _ _ Hb). reflexivity. }
  split; [apply NewTransactionRequired_same|].
  split; [|split].
  - intros ctx db s d Hb g out s' Hg. cbv zeta.
    pose proof (Wrap_after_work _ _ _ _ _ _ _ _ _ Hb Hg) as Hgw.
    split; [apply Get_Set|].
    split; [exact Hgw|].
    split; [rewrite Hin; exact Hg|].
    split; [rewrite Hw; exact Hgw|].
    intros Hn. unfold Ensure at 1. rewrite Hn, Hw. exact Hgw.
  - intros ctx db g s Hn. unfold Ensure. rewrite Hn. reflexivity.
  - intros ctx db g s.
    split; [apply Hin|]. split; [apply Hw|].
    unfold Ensure at 1 3.
    destruct (NewTransactionRequired (Get ctx) o) eqn:Hn; [apply Hw|].
    unfold Ensure. rewrite Hn. reflexivity.
Qed.

End LifecycleFacts.

(** ** The lifecycle on the scripted driver *)

Lemma Wrap_work_error_witness :
  begin_tx 0%nat context.Background None (driver (fresh rollbackFails))
    = (inl 1%nat, mkScript 2%nat None None (Some "rollback failed"%string))
  /\ Wrap context.Background 0%nat None fail (fresh rollbackFails)
    = (Returned (Some "test"%string),
       mkMachine (mkScript 2%nat None None (Some "rollback failed"%string))
         [CallBeginTx 0%nat context.Background None; CallRollback 1%nat]).
Proof.
  split; [reflexivity|].
  exact (@Wrap_work_error Script ScriptDriver context.Background 0%nat None fail
           (fresh rollbackFails) _ 1%nat _ "test"%string eq_refl eq_refl).
Defined.

Lemma Wrap_work_panic_witness :
  begin_tx 0%nat context.Background ReadOnly (driver (fresh rollbackFails))
    = (inl 1%nat, mkScript 2%nat None None (Some "rollback failed"%string))
  /\ Wrap context.Background 0%nat ReadOnly blowUp (fresh rollbackFails)
    = (Panicked "boom"%string,
       mkMachine (mkScript 2%nat None None (Some "rollback failed"%string))
         [CallBeginTx 0%nat context.Background ReadOnly; CallRollback 1%nat]).
Proof.
  split; [reflexivity|].
  exact (@Wrap_work_panic Script ScriptDriver context.Background 0%nat ReadOnly blowUp
           (fresh rollbackFails) _ 1%nat _ "boom"%string eq_refl eq_refl).
Defined.

Lemma Wrap_begin_failure_witness :
  begin_tx 0%nat context.Background None (driver (fresh beginFails))
    = (inr "begin failed"%string, beginFails)
  /\ Wrap context.Background 0%nat None checkTxExists (fresh beginFails)
    = (Returned (Some "begin failed"%string),
       mkMachine beginFails [CallBeginTx 0%nat context.Background None]).
Proof.
  split; [reflexivity|].
  exact (@Wrap_begin_failure Script ScriptDriver context.Background 0%nat None
           (fresh beginFails) "begin failed"%string beginFails eq_refl checkTxExists).
Defined.

Lemma Ensure_reuse_witness :
  let ctx := Set_ context.Background (Some 7%nat) None in
  NewTransactionRequired (Get ctx) None = false
  /\ Ensure ctx 0%nat None checkTxExists (fresh healthy) = (Returned None, fresh healthy).
Proof.
  cbv zeta. split; [reflexivity|].
  destruct (@Ensure_reuse Script ScriptDriver
              (Set_ context.Background (Some 7%nat) None) 0%nat None checkTxExists
              (fresh healthy) eq_refl) as [E _].
  rewrite E. reflexivity.
Defined.

Lemma Wrap_carrier_reused_witness :
  begin_tx 0%nat context.Background ReadOnly (driver (fresh healthy))
    = (inl 1%nat, mkScript 2%nat None None None)
  /\ Wrap context.Background 0%nat ReadOnly
       (fun c => Ensure c 0%nat ReadOnly checkTxExists) (fresh healthy)
     = (Returned None,
        mkMachine (mkScript 2%nat None None None)
          [CallBeginTx 0%nat context.Background ReadOnly; CallCommit 1%nat]).
Proof.
  split; [reflexivity|].
  destruct (@Wrap_carrier_reused Script ScriptDriver 1%nat ReadOnly) as (_ & Hopen & _).
  destruct (Hopen context.Background 0%nat (fresh healthy) _ eq_refl
              checkTxExists _ _ eq_refl) as (_ & _ & _ & Hnested & _).
  exact Hnested.
Defined.

(** C1: on a database whose [Commit] answers an error, a [Wrap] whose
    work returns [nil] issues [BeginTx] and then [Commit] once, and no
    [Rollback], but returns [nil]: the error [Commit] answered is not
    what the caller gets. *)
Theorem Wrap_commit_failure_not_returned :
  let s' := begun 0%nat context.Background None (fresh commitFails)
              (mkScript 2%nat None (Some "commit failed"%string) None) in
  checkTxExists (Set_ context.Background (Some 1%nat) None) s' = (Returned None, s')
  /\ fst (commit 1%nat (driver s')) = Some "commit failed"%string
  /\ Wrap context.Background 0%nat None checkTxExists (fresh commitFails)
    = (Returned None,
       mkMachine (mkScript 2%nat None (Some "commit failed"%string) None)
         [CallBeginTx 0%nat context.Background None; CallCommit 1%nat]).
Proof.
  cbv zeta. split; [reflexivity|]. split; [reflexivity|].
  exact (@Wrap_work_ok Script ScriptDriver context.Background 0%nat None checkTxExists
           (fresh commitFails) _ 1%nat _ eq_refl eq_refl).
Qed.

(** * Further properties *)

(** ** More on the reuse decision *)

(** X1: the whole decision table in one statement.  The transaction at
    hand is reused exactly when the carrier is valid and either both
    options are nil, or both are present with the same read-only flag
    and a requested isolation level not above the held one. *)
Theorem NewTransactionRequired_reuse_iff (c : Current) (opts : option sql.TxOptions) :
  NewTransactionRequired c opts = false <->
  IsValid c = true
  /\ match Opts c, opts with
     | None, None => True
     | Some held, Some req =>
         sql.ReadOnly held = sql.ReadOnly req
         /\ sql.Isolation req <= sql.Isolation held
     | _, _ => False
     end.
Proof.
  unfold NewTransactionRequired.
  destruct (IsValid c); cbn; [|split; [discriminate | intros [E _]; discriminate]].
  destruct (Opts c) as [held|], opts as [req|]; cbn;
    try (split; [discriminate | intros [_ []]]);
    try (split; [intros _; split; [reflexivity | exact I] | reflexivity]).
  destruct (Bool.eqb_spec (sql.ReadOnly held) (sql.ReadOnly req)) as [E|N]; cbn.
  - destruct (Z.gtb_spec (sql.Isolation req) (sql.Isolation held)).
    + split; [discriminate | intros (_ & _ & Hle); lia].
    + split; [intros _; repeat split; [exact E | lia] | reflexivity].
  - split; [discriminate | intros (_ & E & _); contradiction].
Qed.

(** X2: being served by a transaction is transitive.  If a transaction
    opened with options [a] serves a request for [b], and one opened
    with [b] serves a request for [c], then the first serves [c]. *)
Theorem NewTransactionRequired_trans
  (tx1 tx2 : sql.Tx) (a b c : option sql.TxOptions) :
  NewTransactionRequired {| Tx := Some tx1; Opts := a |} b = false ->
  NewTransactionRequired {| Tx := Some tx2; Opts := b |} c = false ->
  NewTransactionRequired {| Tx := Some tx1; Opts := a |} c = false.
Proof.
  rewrite !NewTransactionRequired_reuse_iff. cbn [Tx Opts].
  intros [_ Hab] [_ Hbc]. split; [reflexivity|].
  destruct a as [a|], b as [b|], c as [c|]; try contradiction; try exact I.
  destruct Hab as [E1 L1], Hbc as [E2 L2]. split; [congruence | lia].
Qed.

Lemma NewTransactionRequired_trans_witness :
  let strong := Some (sql.mkTxOptions sql.LevelSerializable true) in
  let mid := Some (sql.mkTxOptions sql.LevelReadCommitted true) in
  NewTransactionRequired {| Tx := Some 1%nat; Opts := strong |} mid = false
  /\ NewTransactionRequired {| Tx := Some 2%nat; Opts := mid |} ReadOnly = false
  /\ NewTransactionRequired {| Tx := Some 1%nat; Opts := strong |} ReadOnly = false.
Proof.
  cbv zeta. split; [reflexivity|]. split; [reflexivity|].
  exact (NewTransactionRequired_trans 1%nat 2%nat
           (Some (sql.mkTxOptions sql.LevelSerializable true))
           (Some (sql.mkTxOptions sql.LevelReadCommitted true))
           ReadOnly eq_refl eq_refl).
Defined.

(** X3: reuse is kept when the held isolation level goes up or the
    requested one goes down, the read-only flags staying as they are. *)
Theorem NewTransactionRequired_monotone
  (tx tx' : sql.Tx) (held held' req req' : sql.TxOptions) :
  NewTransactionRequired {| Tx := Some tx; Opts := Some held |} (Some req) = false ->
  sql.ReadOnly held' = sql.ReadOnly held ->
  sql.Isolation held <= sql.Isolation held' ->
  sql.ReadOnly req' = sql.ReadOnly req ->
  sql.Isolation req' <= sql.Isolation req ->
  NewTransactionRequired {| Tx := Some tx'; Opts := Some held' |} (Some req') = false.
Proof.
  rewrite !NewTransactionRequired_reuse_iff. cbn [Tx Opts].
  intros (_ & E & L) Eh Lh Er Lr.
  split; [reflexivity|]. split; [congruence | lia].
Qed.

Lemma NewTransactionRequired_monotone_witness :
  NewTransactionRequired
    {| Tx := Some 1%nat; Opts := Some (sql.mkTxOptions sql.LevelRepeatableRead false) |}
    (Some (sql.mkTxOptions sql.LevelReadCommitted false)) = false
  /\ NewTransactionRequired
       {| Tx := Some 2%nat; Opts := Some (sql.mkTxOptions sql.LevelSerializable false) |}
       (Some (sql.mkTxOptions sql.LevelDefault false)) = false.
Proof.
  split; [reflexivity|].
  apply (NewTransactionRequired_monotone 1%nat 2%nat
           (sql.mkTxOptions sql.LevelRepeatableRead false)
           (sql.mkTxOptions sql.LevelSerializable false)
           (sql.mkTxOptions sql.LevelReadCommitted false)
           (sql.mkTxOptions sql.LevelDefault false)).
  - reflexivity.
  - reflexivity.
  - cbn. unfold sql.LevelRepeatableRead, sql.LevelSerializable. lia.
  - reflexivity.
  - cbn. unfold sql.LevelDefault, sql.LevelReadCommitted. lia.
Defined.

(** X4: a request for [ReadOnly()] is served exactly by a valid carrier
    whose held options are present, read-only, and of an isolation
    level not below [sql.LevelDefault]; a carrier opened without options
    or for writing never serves it. *)
Theorem ReadOnly_request_reuse_iff (c : Current) :
  NewTransactionRequired c ReadOnly = false <->
  IsValid c = true
  /\ exists held, Opts c = Some held
       /\ sql.ReadOnly held = true
       /\ sql.LevelDefault <= sql.Isolation held.
Proof.
  unfold ReadOnly. rewrite NewTransactionRequired_reuse_iff. cbn [sql.ReadOnly sql.Isolation].
  destruct (Opts c) as [held|].
  - split.
    + intros (Hv & E & L). split; [exact Hv|]. exists held. auto.
    + intros (Hv & h & Eh & E & L). inversion Eh; subst h. auto.
  - split.
    + intros [_ []].
    + intros (_ & h & Eh & _). discriminate.
Qed.

(** ** More on the context plumbing *)

(** X5: the carrier read from a context is valid exactly when the
    nearest value bound under [ctxKey] is a [Current] with a non-nil
    transaction; with no binding, or a value of another type, it is not. *)
Theorem Get_valid_iff (ctx : context.Context) :
  IsValid (Get ctx) = true <->
  exists tx o,
    context.Value ctx (context.KeyTxx ctxKey)
      = context.AnyCurrent {| Tx := Some tx; Opts := o |}.
Proof.
  unfold Get. split.
  - destruct (context.Value ctx (context.KeyTxx ctxKey)) as [|[[tx|] o]|id];
      cbn; try discriminate.
    intros _. exists tx, o. reflexivity.
  - intros (tx & o & ->). reflexivity.
Qed.

(** X6: binding a value under any key other than [ctxKey] on top of a
    context does not change the carrier read from it. *)
Theorem Get_other_key (ctx : context.Context) (k : context.Key) (v : context.Any) :
  k <> context.KeyTxx ctxKey ->
  Get (context.WithValue ctx k v) = Get ctx.
Proof.
  intros Hk. unfold Get. cbn [context.Value].
  destruct (context.Key_eqb k (context.KeyTxx ctxKey)) eqn:E; [|reflexivity].
  apply Key_eqb_eq in E. contradiction.
Qed.

Lemma Get_other_key_witness :
  context.KeyTxx 1 <> context.KeyTxx ctxKey
  /\ Get (context.WithValue (Set_ context.Background (Some 4%nat) ReadOnly)
            (context.KeyTxx 1) (context.AnyCurrent zeroCurrent))
     = {| Tx := Some 4%nat; Opts := ReadOnly |}.
Proof.
  split; [discriminate|].
  rewrite (Get_other_key (Set_ context.Background (Some 4%nat) ReadOnly)
             (context.KeyTxx 1) (context.AnyCurrent zeroCurrent));
    [reflexivity | discriminate].
Defined.

(** ** More on the lifecycle *)

Section LifecycleMore.

Context {D : Type} `{Driver D}.

(** X7: a context whose carrier is invalid (none bound, a value of
    another type, or a carrier with a nil transaction) always makes
    [Ensure] open a new transaction: it is [Wrap], whatever the options. *)
Theorem Ensure_invalid_carrier_wraps ctx db opts (f : Work D) (s : Machine D) :
  IsValid (Get ctx) = false ->
  Ensure ctx db opts f s = Wrap ctx db opts f s.
Proof.
  intros Hv. unfold Ensure, NewTransactionRequired. rewrite Hv. reflexivity.
Qed.

(** X8: once the session is open, how [Wrap] ends is how the work ended:
    the same returned error, or a panic with the same value.  Neither
    what [Commit] answers nor what [Rollback] answers reaches the caller. *)
Theorem Wrap_outcome_is_work_outcome ctx db opts (f : Work D) (s : Machine D) tx d :
  begin_tx db ctx opts (driver s) = (inl tx, d) ->
  fst (Wrap ctx db opts f s)
    = fst (f (Set_ ctx (Some tx) opts) (begun db ctx opts s d)).
Proof.
  intros Hb.
  destruct (f (Set_ ctx (Some tx) opts) (begun db ctx opts s d)) as [o s'] eqn:Hf.
  rewrite (Wrap_after_work _ _ _ _ _ _ _ _ _ Hb Hf). reflexivity.
Qed.

(** X9: once the session is open, [Wrap] issues exactly one call after
    the work, on the session it opened: [Commit] when the work returned
    [nil], [Rollback] when it returned an error or panicked. *)
Theorem Wrap_exactly_one_finalizer ctx db opts (f : Work D) (s s' : Machine D) tx d o :
  begin_tx db ctx opts (driver s) = (inl tx, d) ->
  f (Set_ ctx (Some tx) opts) (begun db ctx opts s d) = (o, s') ->
  calls (snd (Wrap ctx db opts f s))
    = calls s' ++ [match o with
                   | Returned None => CallCommit tx
                   | _ => CallRollback tx
                   end].
Proof.
  intros Hb Hf. rewrite (Wrap_after_work _ _ _ _ _ _ _ _ _ Hb Hf).
  destruct o as [[e|]|p]; reflexivity.
Qed.

(** X10: what [Ensure] amounts to.  Either it has to open a session and
    [BeginTx] fails, and then it returns that error whatever the work
    is; or the work runs on a context whose carrier is valid and serves
    the requested options, and [Ensure] ends the way the work ends. *)
Theorem Ensure_runs_work_in_matching_transaction ctx db opts (s : Machine D) :
  (exists e d,
      NewTransactionRequired (Get ctx) opts = true
      /\ begin_tx db ctx opts (driver s) = (inr e, d)
      /\ forall f : Work D,
           Ensure ctx db opts f s = (Returned (Some e), begun db ctx opts s d))
  \/ (exists ctx' s',
        IsValid (Get ctx') = true
        /\ NewTransactionRequired (Get ctx') opts = false
        /\ forall f : Work D,
             fst (Ensure ctx db opts f s) = fst (f ctx' s')).
Proof.
  destruct (NewTransactionRequired (Get ctx) opts) eqn:Hn.
  - destruct (begin_tx db ctx opts (driver s)) as [[tx|e] d] eqn:Hb.
    + right. exists (Set_ ctx (Some tx) opts), (begun db ctx opts s d).
      rewrite Get_Set. split; [reflexivity|].
      split; [apply NewTransactionRequired_same|].
      intros f. unfold Ensure. rewrite Hn.
      destruct (f (Set_ ctx (Some tx) opts) (begun db ctx opts s d)) as [o s'] eqn:Hf.
      rewrite (Wrap_after_work _ _ _ _ _ _ _ _ _ Hb Hf). reflexivity.
    + left. exists e, d. split; [reflexivity|]. split; [reflexivity|].
      intros f. unfold Ensure. rewrite Hn. apply Wrap_failed. exact Hb.
  - right. exists ctx, s. split.
    + unfold NewTransactionRequired in Hn.
      destruct (IsValid (Get ctx)); [reflexivity | discriminate].
    + split; [exact Hn|]. intros f. unfold Ensure. rewrite Hn. reflexivity.
Qed.

(** X11: [Ensure] around the test helper [fail], on every database,
    context and options.  On reuse it returns the helper's error and
    issues nothing.  Otherwise it issues [BeginTx]: when that fails it
    returns the error of [BeginTx] and issues nothing more; when it
    opens a session it issues [Rollback] on it and returns the helper's
    error.  So it always returns a non-nil error and never panics. *)
Theorem Ensure_fail_returns_error ctx db opts (s : Machine D) :
  Ensure ctx db opts fail s =
    (if NewTransactionRequired (Get ctx) opts then
       match begin_tx db ctx opts (driver s) with
       | (inr e, d) => (Returned (Some e), begun db ctx opts s d)
       | (inl tx, d) =>
           (Returned (Some "test"%string),
            mkMachine (snd (rollback tx d))
              (calls s ++ [CallBeginTx db ctx opts; CallRollback tx]))
       end
     else (Returned (Some "test"%string), s))
  /\ exists e, fst (Ensure ctx db opts fail s) = Returned (Some e).
Proof.
  unfold Ensure. destruct (NewTransactionRequired (Get ctx) opts).
  - destruct (begin_tx db ctx opts (driver s)) as [[tx|e] d] eqn:Hb.
    + rewrite (Wrap_after_work ctx db opts fail s (begun db ctx opts s d) tx d
                 (Returned (Some "test"%string)) Hb eq_refl).
      cbn [begun driver calls]. rewrite <- app_assoc. cbn [app fst].
      split; [reflexivity | eexists; reflexivity].
    + rewrite (Wrap_failed _ _ _ _ _ _ _ Hb).
      split; [reflexivity | eexists; reflexivity].
  - split; [reflexivity | eexists; reflexivity].
Qed.

(** X12: [Ensure] around the test helper [checkTxExists], on every
    database, context and options.  On reuse it returns [nil] and issues
    nothing.  Otherwise it issues [BeginTx]: when that fails it returns
    the error of [BeginTx] and issues nothing more; when it opens a
    session it issues [Commit] on it and returns [nil], whatever
    [Commit] answers.  The helper's own error is never returned. *)
Theorem Ensure_checkTxExists ctx db opts (s : Machine D) :
  Ensure ctx db opts checkTxExists s =
    (if NewTransactionRequired (Get ctx) opts then
       match begin_tx db ctx opts (driver s) with
       | (inr e, d) => (Returned (Some e), begun db ctx opts s d)
       | (inl tx, d) =>
           (Returned None,
            mkMachine (snd (commit tx d))
              (calls s ++ [CallBeginTx db ctx opts; CallCommit tx]))
       end
     else (Returned None, s)).
Proof.
  unfold Ensure. destruct (NewTransactionRequired (Get ctx) opts) eqn:Hn.
  - destruct (begin_tx db ctx opts (driver s)) as [[tx|e] d] eqn:Hb.
    + rewrite (Wrap_after_work ctx db opts checkTxExists s (begun db ctx opts s d) tx d
                 (Returned None) Hb eq_refl).
      cbn [begun driver calls]. rewrite <- app_assoc. reflexivity.
    + apply Wrap_failed. exact Hb.
  - unfold checkTxExists.
    unfold NewTransactionRequired in Hn.
    destruct (IsValid (Get ctx)); [reflexivity | discriminate].
Qed.

(** X13: around a quiet unit of work, [Ensure] adds to the record of
    calls nothing when it reuses the transaction at hand, and otherwise
    one [BeginTx] followed, when the session opened, by exactly one
    [Commit] or one [Rollback] on that session. *)
Theorem Ensure_quiet_trace ctx db opts (f : Work D) (s : Machine D) :
  quiet f ->
  exists l,
    calls (snd (Ensure ctx db opts f s)) = calls s ++ l
    /\ ((NewTransactionRequired (Get ctx) opts = false /\ l = [])
        \/ (NewTransactionRequired (Get ctx) opts = true
            /\ ((exists e d,
                    begin_tx db ctx opts (driver s) = (inr e, d)
                    /\ l = [CallBeginTx db ctx opts])
                \/ (exists tx d,
                      begin_tx db ctx opts (driver s) = (inl tx, d)
                      /\ (l = [CallBeginTx db ctx opts; CallCommit tx]
                          \/ l = [CallBeginTx db ctx opts; CallRollback tx]))))).
Proof.
  intros Hq. unfold Ensure.
  destruct (NewTransactionRequired (Get ctx) opts) eqn:Hn.
  - destruct (begin_tx db ctx opts (driver s)) as [[tx|e] d] eqn:Hb.
    + destruct (f (Set_ ctx (Some tx) opts) (begun db ctx opts s d)) as [o s'] eqn:Hf.
      assert (Hs' : calls s' = calls s ++ [CallBeginTx db ctx opts]).
      { specialize (Hq (Set_ ctx (Some tx) opts) (begun db ctx opts s d)).
        rewrite Hf in Hq. exact Hq. }
      rewrite (Wrap_after_work _ _ _ _ _ _ _ _ _ Hb Hf).
      destruct o as [[e|]|p]; cbn [snd calls]; rewrite Hs', <- app_assoc; cbn [app];
        eexists; (split; [reflexivity|]); right; (split; [reflexivity|]); right;
        exists tx, d; (split; [reflexivity|]); auto.
    + rewrite (Wrap_failed _ _ _ _ _ _ _ Hb). cbn [snd begun calls].
      eexists. split; [reflexivity|]. right. split; [reflexivity|]. left.
      exists e, d. auto.
  - exists []. rewrite app_nil_r. split; [apply Hq|]. left. auto.
Qed.

End LifecycleMore.

Lemma checkTxExists_quiet (D : Type) : quiet (@checkTxExists D).
Proof.
  intros ctx s. unfold checkTxExists. destruct (negb (IsValid (Get ctx))); reflexivity.
Qed.

Lemma Ensure_invalid_carrier_wraps_witness :
  let ctx := Set_ (Set_ context.Background (Some 7%nat) None) None None in
  IsValid (Get ctx) = false
  /\ Ensure ctx 0%nat None checkTxExists (fresh healthy)
     = (Returned None,
        mkMachine (mkScript 2%nat None None None)
          [CallBeginTx 0%nat ctx None; CallCommit 1%nat]).
Proof.
  cbv zeta. split; [reflexivity|].
  rewrite (@Ensure_invalid_carrier_wraps Script ScriptDriver
             (Set_ (Set_ context.Background (Some 7%nat) None) None None)
             0%nat None checkTxExists (fresh healthy) eq_refl).
  reflexivity.
Defined.

Lemma Wrap_outcome_is_work_outcome_witness :
  begin_tx 0%nat context.Background ReadOnly (driver (fresh commitFails))
    = (inl 1%nat, mkScript 2%nat None (Some "commit failed"%string) None)
  /\ fst (Wrap context.Background 0%nat ReadOnly blowUp (fresh commitFails))
     = Panicked "boom"%string.
Proof.
  split; [reflexivity|].
  rewrite (@Wrap_outcome_is_work_outcome Script ScriptDriver context.Background 0%nat
             ReadOnly blowUp (fresh commitFails) 1%nat _ eq_refl).
  reflexivity.
Defined.

Lemma Wrap_exactly_one_finalizer_witness :
  begin_tx 0%nat context.Background None (driver (fresh healthy))
    = (inl 1%nat, mkScript 2%nat None None None)
  /\ calls (snd (Wrap context.Background 0%nat None fail (fresh healthy)))
     = [CallBeginTx 0%nat context.Background None; CallRollback 1%nat].
Proof.
  split; [reflexivity|].
  exact (@Wrap_exactly_one_finalizer Script ScriptDriver context.Background 0%nat None
           fail (fresh healthy) _ 1%nat _ _ eq_refl eq_refl).
Defined.

Lemma Ensure_quiet_trace_witness :
  quiet (@checkTxExists Script)
  /\ exists l,
       calls (snd (Ensure context.Background 0%nat None checkTxExists (fresh healthy)))
         = calls (fresh healthy) ++ l
       /\ l <> [].
Proof.
  split; [apply checkTxExists_quiet|].
  destruct (@Ensure_quiet_trace Script ScriptDriver context.Background 0%nat None
              checkTxExists (fresh healthy) (checkTxExists_quiet Script))
    as (l & Hl & Hcases).
  exists l. split; [exact Hl|].
  destruct Hcases as [[Hn _] | [_ [(e & d & Hb & _) | (tx & d & _ & [-> | ->])]]];
    discriminate.
Defined.
